(** * Mars Rover controller: a shallow embedding of [rovercontroller.py]

    The module [src/mars_rover/rovercontroller.py] defines one class,
    [RoverController], which owns a bounding box (two diagonal vertices) and a
    dictionary of rovers, and mediates every change of a rover's position and
    heading.  Its methods mutate the controller in place and signal illegal
    requests by raising [Exception] with a message.

    The module is Python 2 (its driver uses the [print] statement), so an
    integer object is either an [int], a machine word, or a [long], and a call
    chain is cut by the interpreter's recursion limit.

    The embedding follows the class method by method:
    - Python integers are [Z], with the two integer types told apart where the
      code tests for one of them; Python floats are the kernel's binary64
      floats ([PrimFloat]), which are the very IEEE 754 doubles CPython uses;
    - the dictionary [self.rovers] is a [gmap] from ids to rover records;
    - a method is a function from the controller to a result (a value or the
      exception raised) paired with the controller as the call leaves it, so
      that what a raising call has already written stays visible;
    - the two [math] functions the code calls, [math.sin] and [math.cos], are
      the platform's libm and are taken as a parameter, and so are the
      interpreter's [sys.maxint] and the room its recursion limit leaves. *)

From Stdlib Require Import ZArith Floats.
From stdpp Require Import base option list gmap strings.

Local Open Scope Z_scope.

(** ** Python values *)

(** The arguments that the code inspects with [isinstance] ([distance] in
    [move], [vertices] in [_set_vertices]) can be any Python object; the
    constructors below cover the shapes those tests tell apart.  [PyInt] is
    an object of type [int] and [PyLong] an object of type [long]: a [long]
    holds any integer, small ones included ([0L]), and is what integer
    arithmetic yields beyond [sys.maxint]. *)
#[warnings="-register-all"]
Inductive pyval : Type :=
  | PyInt (n : Z)
  | PyFloat (f : float)
  | PyStr (s : string)
  | PyNone
  | PyTuple (items : list pyval)
  | PyList (items : list pyval)
  | PyLong (n : Z).

(** [isinstance(v, int)]: false of a [long], which is not a subclass of
    [int]. *)
Definition isinstance_int (v : pyval) : bool :=
  match v with PyInt _ => true | _ => false end.


(** [isinstance(v, tuple)] *)
Definition isinstance_tuple (v : pyval) : bool :=
  match v with PyTuple _ => true | _ => false end.

(** [len(v)] on the sequences above (used only behind an [isinstance] test). *)
Definition py_len (v : pyval) : Z :=
  match v with
  | PyTuple items | PyList items => Z.of_nat (length items)
  | _ => 0
  end.

(** [v[i]], with [PyNone] standing for a failed subscript (never reached
    behind the length tests of [_set_vertices]). *)
Definition py_item (v : pyval) (i : nat) : pyval :=
  match v with
  | PyTuple items | PyList items => default PyNone (items !! i)
  | _ => PyNone
  end.

(** ** Exceptions *)

(** Every failure is a plain [Exception] told apart by its message; the
    constructors carry the names the specification gives them.
    - [DuplicateId]: 'A Rover with id %s already exists'
    - [RoverNotFound]: 'Rover %s could not be found'
    - [PositionOccupied]: 'Rover already occupies %s'
    - [OutOfBounds]: 'Position %s is out of grid'
    - [NonOrthogonalTurn]: 'Rover can only turn orthognally'
    - [InvalidDistance]: 'Rover can only move integer units'
    - [InvalidBoundingBox]: 'vertices must be tuple of length 2.' and
      'vertix must be tuple of length 3.'
    - [ConversionError]: the [ValueError] / [OverflowError] that [int] raises
      on a NaN or an infinity.
    - [RecursionLimit]: the [RuntimeError] 'maximum recursion depth exceeded'
      that the interpreter raises when calls nest too deep. *)
Inductive error : Type :=
  | DuplicateId
  | RoverNotFound
  | PositionOccupied
  | OutOfBounds
  | NonOrthogonalTurn
  | InvalidDistance
  | InvalidBoundingBox
  | ConversionError
  | RecursionLimit.

#[global] Instance error_eq_dec : EqDecision error.
Proof. solve_decision. Defined.

Inductive result (A : Type) : Type :=
  | Return (a : A)
  | Raise (e : error).
Arguments Return {A} a.
Arguments Raise {A} e.

(** ** Floating-point operations of the Python runtime *)

Module PyFloat.

(** [math.pi] and [math.pi/2] (the division by two is exact). *)
Definition pi : float := 0x1.921fb54442d18p+1%float.
Definition half_pi : float := (pi / 2)%float.

(** C's [fmod]: the exact remainder of [x / y] truncated toward zero, with
    the sign of [x]; NaN when [x] is not finite or [y] is zero or NaN. *)
Definition fmod (x y : float) : float :=
  match Prim2SF x, Prim2SF y with
  | S754_nan, _ | _, S754_nan => nan
  | S754_infinity _, _ => nan
  | _, S754_zero _ => nan
  | S754_zero _, _ => x
  | S754_finite _ _ _, S754_infinity _ => x
  | S754_finite s mx ex, S754_finite _ my ey =>
      let e := Z.min ex ey in
      let r := (Z.pos mx * 2 ^ (ex - e)) mod (Z.pos my * 2 ^ (ey - e)) in
      let a := SF2Prim (binary_normalize prec emax r e false) in
      if s then (- a)%float else a
  end.

(** Python's [vx % wx] on floats for a non-zero [wx] (CPython's
    [float_rem]): [fmod], moved to the sign of the divisor. *)
Definition rem (vx wx : float) : float :=
  let m := fmod vx wx in
  if negb (m =? 0)%float then
    if negb (Bool.eqb (wx <? 0)%float (m <? 0)%float)
    then (m + wx)%float else m
  else
    let m := (m * m)%float in
    if (wx <? 0)%float then (- m)%float else m.

(** Python's [int(f)]: truncation toward zero; raises on NaN and on the
    infinities. *)
Definition to_int (f : float) : result Z :=
  match Prim2SF f with
  | S754_zero _ => Return 0
  | S754_finite s m e =>
      let a := Z.shiftl (Z.pos m) e in
      Return (if s then - a else a)
  | S754_infinity _ | S754_nan => Raise ConversionError
  end.

End PyFloat.

(** The part of the platform's [math] module that the controller calls. *)
Record Libm : Type := MkLibm {
  math_sin : float → float;
  math_cos : float → float
}.

(** The part of the interpreter that the controller depends on.
    - [sys_maxint] is [sys.maxint]: an object of type [int] holds an integer
      between [- sys.maxint - 1] and [sys.maxint], and an integer outside is a
      [long].
    - [spare_steps] measures the room under the recursion limit at the call
      of [move]: [move] calls itself once per unit step, and the nested calls
      fit for the first step and for [spare_steps] more.  It depends on
      [sys.getrecursionlimit()] and on how deep the caller is. *)
Record Interpreter : Type := MkInterpreter {
  sys_maxint : Z;
  spare_steps : nat
}.

(** The number of unit steps one call of [move] has room for. *)
Definition step_budget (py : Interpreter) : nat := S (spare_steps py).



(** ** Data model *)

(** A lattice cell [(x, y, z)]. *)
Definition Position : Type := Z * Z * Z.

(** A heading [(azimuth, zenith)] in radians.  An angle given as an [int] (the
    driver passes [0]) is read as the float of the same value, which is what
    [%] and [+] against a float and the [math] functions make of it. *)
Definition Heading : Type := float * float.

(** Modelled from the spec: the class [rover.Rover] (module [rover] is
    imported but is not part of the sources); a passive record of a position
    and a heading, built as [Rover(position, heading)]. *)
Record Rover : Type := MkRover {
  position : Position;
  heading : Heading
}.

(** The two diagonal vertices [self.vertices[0]] and [self.vertices[1]]. *)
Definition Box : Type := Position * Position.

(** ** The validated [vertices] property *)

(** [_set_vertices]: the value stored in [self._vertices], or the exception.
    Only the shape is tested: a tuple of length 2 whose two items are tuples of
    length 3. *)
Definition _set_vertices (vertices : pyval) : result pyval :=
  if isinstance_tuple vertices && (py_len vertices =? 2) then
    if isinstance_tuple (py_item vertices 0) && (py_len (py_item vertices 0) =? 3)
       && isinstance_tuple (py_item vertices 1) && (py_len (py_item vertices 1) =? 3)
    then Return vertices
    else Raise InvalidBoundingBox
  else Raise InvalidBoundingBox.

(** What the specification asks of a bounding box: exactly two triples of
    integers. *)
Definition is_int_triple (v : pyval) : bool :=
  match v with
  | PyTuple [a; b; c] => isinstance_int a && isinstance_int b && isinstance_int c
  | _ => false
  end.

Definition is_int_box (v : pyval) : bool :=
  match v with
  | PyTuple [v0; v1] => is_int_triple v0 && is_int_triple v1
  | _ => false
  end.

(** The shape [_set_vertices] tests for. *)
Definition is_triple (v : pyval) : bool :=
  match v with PyTuple [_; _; _] => true | _ => false end.

Definition is_pair_of_triples (v : pyval) : bool :=
  match v with
  | PyTuple [v0; v1] => is_triple v0 && is_triple v1
  | _ => false
  end.

(** The typed reading of a box of integers, and the Python value of a typed
    box. *)
Definition triple_of (v : pyval) : option Position :=
  match v with
  | PyTuple [PyInt x; PyInt y; PyInt z] => Some (x, y, z)
  | _ => None
  end.

Definition box_of (v : pyval) : option Box :=
  match v with
  | PyTuple [v0; v1] =>
      match triple_of v0, triple_of v1 with
      | Some p0, Some p1 => Some (p0, p1)
      | _, _ => None
      end
  | _ => None
  end.

Definition pyval_of_position (p : Position) : pyval :=
  let '(x, y, z) := p in PyTuple [PyInt x; PyInt y; PyInt z].

Definition pyval_of_box (b : Box) : pyval :=
  PyTuple [pyval_of_position b.1; pyval_of_position b.2].

(** ** The controller *)

Section Controller.

(** Rover ids are dictionary keys: any type with decidable equality that can
    be hashed. *)
Context {Id : Type} `{Countable Id}.
Variable libm : Libm.
Variable py : Interpreter.

(** The object state: [self.vertices] and [self.rovers].  From here on the
    vertices are triples of integers, as the data model has them. *)
Record controller : Type := MkController {
  vertices : Box;
  rovers : gmap Id Rover
}.

(** A method call: the result and the controller as the call leaves it. *)
Definition M (A : Type) : Type := controller → result A * controller.

Definition ret {A} (a : A) : M A := λ c, (Return a, c).
Definition raise {A} (e : error) : M A := λ c, (Raise e, c).
Definition bind {A B} (m : M A) (k : A → M B) : M B :=
  λ c, match m c with
       | (Return a, c') => k a c'
       | (Raise e, c') => (Raise e, c')
       end.
Definition get : M controller := λ c, (Return c, c).
Definition put (c' : controller) : M unit := λ _, (Return tt, c').
Definition lift {A} (r : result A) : M A := λ c, (r, c).

Notation "x <- m ;; k" := (bind m (λ x, k))
  (at level 100, m at next level, right associativity).
Notation "m ;;; k" := (bind m (λ _, k))
  (at level 100, right associativity).

(** [__init__]: [self.rovers = {}] and then the validated assignment of
    [self.vertices]; the fields of the new object, or the exception. *)
Definition __init__ (vertices : pyval) : result (pyval * gmap Id Rover) :=
  let rovers : gmap Id Rover := ∅ in
  match _set_vertices vertices with
  | Return v => Return (v, rovers)
  | Raise e => Raise e
  end.

(** The controller [RoverController(vertices)] builds from a box of
    integers. *)
Definition new_controller (b : Box) : controller :=
  {| vertices := b; rovers := ∅ |}.

(** [[r.position for r in self.rovers.values()]] *)
Definition positions (c : controller) : list Position :=
  position <$> (map_to_list (rovers c)).*2.

(** [is_empty] *)
Definition is_empty (c : controller) (p : Position) : bool :=
  if bool_decide (p ∈ positions c) then false else true.

(** [in_grid] *)
Definition in_grid (c : controller) (p : Position) : bool :=
  let '(x, y, z) := p in
  let '((v0x, v0y, v0z), (v1x, v1y, v1z)) := vertices c in
  if ((v0x <=? x) && (x <=? v1x) || (v1x <=? x) && (x <=? v0x)) &&
     ((v0y <=? y) && (y <=? v1y) || (v1y <=? y) && (y <=? v0y)) &&
     ((v0z <=? z) && (z <=? v1z) || (v1z <=? z) && (z <=? v0z))
  then true else false.

(** [check_position] *)
Definition check_position (p : Position) : M unit :=
  c <- get ;;
  if negb (is_empty c p) then raise PositionOccupied
  else if negb (in_grid c p) then raise OutOfBounds
  else ret tt.

(** [add_rover] *)
Definition add_rover (rover_id : Id) (p : Position) (h : Heading) : M unit :=
  check_position p ;;;
  c <- get ;;
  match rovers c !! rover_id with
  | None =>
      put {| vertices := vertices c;
             rovers := <[rover_id := MkRover p h]> (rovers c) |}
  | Some _ => raise DuplicateId
  end.

(** [get_rover] *)
Definition get_rover (rover_id : Id) : M Rover :=
  c <- get ;;
  match rovers c !! rover_id with
  | None => raise RoverNotFound
  | Some r => ret r
  end.

(** [r.position = p] for the rover object stored under [rover_id]. *)
Definition set_position (rover_id : Id) (p : Position) : M unit :=
  c <- get ;;
  put {| vertices := vertices c;
         rovers := alter (λ r, MkRover p (heading r)) rover_id (rovers c) |}.

(** [r.heading = h] for the rover object stored under [rover_id]. *)
Definition set_heading (rover_id : Id) (h : Heading) : M unit :=
  c <- get ;;
  put {| vertices := vertices c;
         rovers := alter (λ r, MkRover (position r) h) rover_id (rovers c) |}.

(** The three increments of [move], in the order the code evaluates them:
    [int(sin(zenith)*cos(azimuth))], [int(sin(zenith)*sin(azimuth))],
    [int(cos(zenith))]. *)
Definition direction (h : Heading) : result Position :=
  let '(azimuth, zenith) := h in
  match PyFloat.to_int (math_sin libm zenith * math_cos libm azimuth)%float with
  | Raise e => Raise e
  | Return dx =>
      match PyFloat.to_int (math_sin libm zenith * math_sin libm azimuth)%float with
      | Raise e => Raise e
      | Return dy =>
          match PyFloat.to_int (math_cos libm zenith) with
          | Raise e => Raise e
          | Return dz => Return (dx, dy, dz)
          end
      end
  end.

Definition translate (p d : Position) : Position :=
  let '(x, y, z) := p in
  let '(dx, dy, dz) := d in
  (x + dx, y + dy, z + dz).

(** One pass through the [elif distance > 0] branch of [move], up to the
    recursive call: look the rover up, compute the candidate cell, check it,
    commit it. *)
Definition unit_step (rover_id : Id) : M unit :=
  r <- get_rover rover_id ;;
  d <- lift (direction (heading r)) ;;
  let p := translate (position r) d in
  check_position p ;;;
  set_position rover_id p.

(** [move], called with room for [budget] unit steps under the recursion
    limit.  A distance that is not an [int] raises; an [int] that is not
    positive falls through both branches and the call returns; a positive
    [int] runs one step and then the call [self.move(rover_id, distance - 1)],
    which has room for one step less.  When there is no room left for a step,
    the interpreter raises in the call that would make it, before anything of
    that step is written. *)
Fixpoint move_at (budget : nat) (rover_id : Id) (distance : pyval) : M unit :=
  match distance with
  | PyInt d =>
      if 0 <? d then
        match budget with
        | O => raise RecursionLimit
        | S budget' =>
            unit_step rover_id ;;;
            move_at budget' rover_id (PyInt (d - 1))
        end
      else ret tt
  | _ => raise InvalidDistance
  end.

(** [move], as the caller calls it. *)
Definition move (rover_id : Id) (distance : pyval) : M unit :=
  move_at (step_budget py) rover_id distance.

(** The guard of [turn]: [delta % (math.pi/2) == 0.0]. *)
Definition orthogonal (delta : float) : bool :=
  (PyFloat.rem delta PyFloat.half_pi =? 0)%float.

(** [turn] *)
Definition turn (rover_id : Id) (azimuth zenith : float) : M unit :=
  if orthogonal azimuth && orthogonal zenith then
    r <- get_rover rover_id ;;
    let '(az, z) := heading r in
    set_heading rover_id ((az + azimuth)%float, (z + zenith)%float)
  else raise NonOrthogonalTurn.

(** [k] calls of [turn(rover_id, math.pi/2, 0)] in a row, each made only if
    the one before returned. *)
Fixpoint quarter_turns (k : nat) (rover_id : Id) : M unit :=
  match k with
  | O => ret tt
  | S k' => turn rover_id PyFloat.half_pi 0 ;;; quarter_turns k' rover_id
  end.

(** ** Sequences of operations *)

Inductive op : Type :=
  | AddRover (rover_id : Id) (p : Position) (h : Heading)
  | Turn (rover_id : Id) (azimuth zenith : float)
  | Move (rover_id : Id) (distance : pyval).

Definition exec (o : op) : M unit :=
  match o with
  | AddRover i p h => add_rover i p h
  | Turn i a z => turn i a z
  | Move i d => move i d
  end.

(** The controller after each operation of a sequence, in order; a caller
    that catches an exception goes on with the controller as it is. *)
Fixpoint trace (ops : list op) (c : controller) : list controller :=
  match ops with
  | [] => []
  | o :: ops' => let c' := (exec o c).2 in c' :: trace ops' c'
  end.

(** ** The invariants of the data model *)

Definition all_in_grid (c : controller) : Prop :=
  ∀ i r, rovers c !! i = Some r → in_grid c (position r) = true.

Definition no_collision (c : controller) : Prop :=
  ∀ i j ri rj, i ≠ j →
    rovers c !! i = Some ri → rovers c !! j = Some rj →
    position ri ≠ position rj.

Definition unique_ids (c : controller) : Prop :=
  NoDup (map_to_list (rovers c)).*1.

Definition invariant (c : controller) : Prop :=
  all_in_grid c ∧ no_collision c ∧ unique_ids c.

(** The closed interval between two coordinates given in either order. *)
Definition between (a b x : Z) : Prop := Z.min a b <= x <= Z.max a b.


End Controller.

Arguments controller Id {_ _}.
Arguments MkController {Id _ _} vertices rovers.

(** ** Sample data: the reference driver *)

(** Values of glibc's [sin] and [cos] (x86-64, as CPython's [math] returns
    them) at the headings used below: the multiples of [pi/2] that the driver
    at the end of the module reaches, and the non-aligned angle [0.5].  Outside
    the table the sample answers NaN. *)
Definition tabulated (table : list (float * float)) (x : float) : float :=
  match List.find (λ kv, (kv.1 =? x)%float) table with
  | Some kv => kv.2
  | None => nan
  end.

Definition sin_table : list (float * float) :=
  [ (0x0p+0, 0x0p+0);
    (0x1.921fb54442d18p+0, 0x1p+0);
    (0x1.921fb54442d18p+1, 0x1.1a62633145c07p-53);
    (0x1.2d97c7f3321d2p+2, -0x1p+0);
    (0x1.921fb54442d18p+2, -0x1.1a62633145c07p-52);
    (0x1p-1, 0x1.eaee8744b05fp-2) ]%float.

Definition cos_table : list (float * float) :=
  [ (0x0p+0, 0x1p+0);
    (0x1.921fb54442d18p+0, 0x1.1a62633145c07p-54);
    (0x1.921fb54442d18p+1, -0x1p+0);
    (0x1.2d97c7f3321d2p+2, -0x1.a79394c9e8a0ap-53);
    (0x1.921fb54442d18p+2, 0x1p+0);
    (0x1p-1, 0x1.c1528065b7d5p-1) ]%float.

Definition glibc_samples : Libm :=
  {| math_sin := tabulated sin_table; math_cos := tabulated cos_table |}.

(** CPython 2.7 on 64-bit Linux with the default recursion limit of 1000,
    [move] being called from a few frames deep: [sys.maxint] is [2^63 - 1] and
    there is room for 993 unit steps. *)
Definition cpython_default : Interpreter :=
  {| sys_maxint := 2 ^ 63 - 1; spare_steps := 992 |}.

(** The driver's grid, [RoverController(((0, 0, 0), (5, 5, 0)))], and the
    controller after its first [add_rover]. *)
Definition driver_box : Box := ((0, 0, 0), (5, 5, 0)).

Definition driver_start : controller string :=
  MkController driver_box
    {[ "rover1"%string := MkRover (1, 2, 0) (PyFloat.half_pi, PyFloat.half_pi) ]}.

(** A rover whose heading [(0.5, 0.5)] is not aligned to the axes. *)
Definition skewed_start : controller string :=
  MkController driver_box
    {[ "rover1"%string := MkRover (1, 2, 0) (0x1p-1, 0x1p-1)%float ]}.


(** A pair of 3-tuples whose components are not integers:
    [((0.5, 'a', None), (1, 2, 3))]. *)
Definition fractional_box : pyval :=
  PyTuple [ PyTuple [PyFloat 0x1p-1; PyStr "a"; PyNone];
            PyTuple [PyInt 1; PyInt 2; PyInt 3] ].

(** ** Straight lines *)

(** The cell [k] unit steps away from [p] along the direction [d]. *)
Definition advance (p d : Position) (k : Z) : Position :=
  let '(x, y, z) := p in
  let '(dx, dy, dz) := d in
  (x + k * dx, y + k * dy, z + k * dz).

(** Three rovers on the driver's grid, all heading [(pi/2, pi/2)], that is
    along [(0, 1, 0)]: [rover1] stands right behind [rover2], and [rover3]
    stands on the edge it is facing. *)
Definition crowded_start : controller string :=
  MkController driver_box
    {[ "rover1"%string := MkRover (1, 2, 0) (PyFloat.half_pi, PyFloat.half_pi);
       "rover2"%string := MkRover (1, 3, 0) (PyFloat.half_pi, PyFloat.half_pi);
       "rover3"%string := MkRover (0, 5, 0) (PyFloat.half_pi, PyFloat.half_pi) ]}.

(** A rover whose heading is not a number. *)
Definition lost_start : controller string :=
  MkController driver_box
    {[ "rover1"%string := MkRover (1, 2, 0) (nan, nan) ]}.

(** ** The cells of a box *)

(** The integers between two coordinates given in either order. *)
Definition axis (a b : Z) : list Z :=
  seqZ (Z.min a b) (Z.max a b - Z.min a b + 1).

(** The lattice cells of the box between two vertices, and their number. *)
Definition cells (b : Box) : list Position :=
  let '((x0, y0, z0), (x1, y1, z1)) := b in
  list_prod (list_prod (axis x0 x1) (axis y0 y1)) (axis z0 z1).

Definition volume (b : Box) : Z :=
  let '((x0, y0, z0), (x1, y1, z1)) := b in
  (Z.abs (x1 - x0) + 1) * (Z.abs (y1 - y0) + 1) * (Z.abs (z1 - z0) + 1).

(** A grid of one cell with a rover on it. *)
Definition full_start : controller string :=
  MkController ((0, 0, 0), (0, 0, 0))
    {[ "rover1"%string := MkRover (0, 0, 0) (PyFloat.half_pi, PyFloat.half_pi) ]}.

(** * Properties *)

Section Properties.

Context {Id : Type} `{Countable Id}.
Variable libm : Libm.
Variable py : Interpreter.

Implicit Types (c : controller Id) (i j : Id) (p : Position) (h : Heading).

(** ** The occupancy and bounds predicates *)

Lemma elem_of_positions c p :
  p ∈ positions c ↔ ∃ i r, rovers c !! i = Some r ∧ position r = p.
Proof.
  unfold positions. rewrite list_elem_of_fmap. split.
  - intros (r & -> & Hr). apply list_elem_of_fmap in Hr as ([i r'] & -> & Hir).
    apply elem_of_map_to_list in Hir. eauto.
  - intros (i & r & Hir & <-). exists r. split; [done|].
    apply list_elem_of_fmap. exists (i, r). split; [done|].
    by apply elem_of_map_to_list.
Qed.

Lemma is_empty_true c p :
  is_empty c p = true ↔ ∀ i r, rovers c !! i = Some r → position r ≠ p.
Proof.
  unfold is_empty. case_bool_decide as Hp; rewrite elem_of_positions in Hp.
  - split; [done|]. intros Hall. destruct Hp as (i & r & Hir & Hpos).
    by destruct (Hall i r Hir).
  - split; [|done]. intros _ i r Hir Hpos. apply Hp. eauto.
Qed.

Lemma is_empty_false c p :
  is_empty c p = false ↔ ∃ i r, rovers c !! i = Some r ∧ position r = p.
Proof.
  unfold is_empty. case_bool_decide as Hp; rewrite elem_of_positions in Hp.
  - by split.
  - split; [done|]. intros Hex. by destruct Hp.
Qed.

(** A rover's own cell is never empty. *)
Lemma is_empty_own c i r :
  rovers c !! i = Some r → is_empty c (position r) = false.
Proof. intros Hir. apply is_empty_false. eauto. Qed.

Lemma in_grid_between c x y z :
  in_grid c (x, y, z) = true ↔
  between (vertices c).1.1.1 (vertices c).2.1.1 x ∧
  between (vertices c).1.1.2 (vertices c).2.1.2 y ∧
  between (vertices c).1.2 (vertices c).2.2 z.
Proof.
  unfold in_grid, between.
  destruct (vertices c) as [[[v0x v0y] v0z] [[v1x v1y] v1z]]; simpl.
  destruct (Z.leb_spec v0x x), (Z.leb_spec x v1x), (Z.leb_spec v1x x),
    (Z.leb_spec x v0x), (Z.leb_spec v0y y), (Z.leb_spec y v1y),
    (Z.leb_spec v1y y), (Z.leb_spec y v0y), (Z.leb_spec v0z z),
    (Z.leb_spec z v1z), (Z.leb_spec v1z z), (Z.leb_spec z v0z);
    simpl; split; try done; lia.
Qed.

(** [in_grid] reads nothing of the controller but its vertices. *)
Lemma in_grid_vertices c c' p :
  vertices c = vertices c' → in_grid c p = in_grid c' p.
Proof. unfold in_grid. by intros ->. Qed.

(** ** The methods, case by case *)

Lemma check_position_eq p c :
  check_position p c =
    (if negb (is_empty c p) then Raise PositionOccupied
     else if negb (in_grid c p) then Raise OutOfBounds
     else Return tt, c).
Proof.
  unfold check_position, bind, get, raise, ret.
  by destruct (is_empty c p), (in_grid c p).
Qed.

Lemma add_rover_eq i p h c :
  add_rover i p h c =
    if negb (is_empty c p) then (Raise PositionOccupied, c)
    else if negb (in_grid c p) then (Raise OutOfBounds, c)
    else match rovers c !! i with
         | None => (Return tt,
                    MkController (vertices c) (<[i := MkRover p h]> (rovers c)))
         | Some _ => (Raise DuplicateId, c)
         end.
Proof.
  unfold add_rover, bind. rewrite check_position_eq.
  destruct (is_empty c p), (in_grid c p); simpl; try done;
    unfold get, put, raise; by destruct (rovers c !! i).
Qed.

Lemma get_rover_eq i c :
  get_rover i c =
    match rovers c !! i with
    | None => (Raise RoverNotFound, c)
    | Some r => (Return r, c)
    end.
Proof. unfold get_rover, bind, get, raise, ret. by destruct (rovers c !! i). Qed.

Lemma alter_present (f : Rover → Rover) i r (m : gmap Id Rover) :
  m !! i = Some r → alter f i m = <[i := f r]> m.
Proof.
  intros Hr. apply map_eq. intros j. rewrite lookup_alter, lookup_insert.
  case_decide; [|done]. subst j. by rewrite Hr.
Qed.

Lemma turn_eq i a z c :
  turn i a z c =
    if orthogonal a && orthogonal z then
      match rovers c !! i with
      | None => (Raise RoverNotFound, c)
      | Some r =>
          (Return tt,
           MkController (vertices c)
             (<[i := MkRover (position r)
                       ((heading r).1 + a, (heading r).2 + z)%float]>
                (rovers c)))
      end
    else (Raise NonOrthogonalTurn, c).
Proof.
  unfold turn. destruct (orthogonal a && orthogonal z); [|done].
  unfold bind. rewrite get_rover_eq. destruct (rovers c !! i) as [r|] eqn:Hr; [|done].
  destruct (heading r) as [az ze]. unfold set_heading, bind, get, put. simpl.
  by rewrite (alter_present _ _ _ _ Hr).
Qed.

Lemma unit_step_eq i c :
  unit_step libm i c =
    match rovers c !! i with
    | None => (Raise RoverNotFound, c)
    | Some r =>
        match direction libm (heading r) with
        | Raise e => (Raise e, c)
        | Return d =>
            let p := translate (position r) d in
            if negb (is_empty c p) then (Raise PositionOccupied, c)
            else if negb (in_grid c p) then (Raise OutOfBounds, c)
            else (Return tt,
                  MkController (vertices c)
                    (<[i := MkRover p (heading r)]> (rovers c)))
        end
    end.
Proof.
  unfold unit_step, bind. rewrite get_rover_eq.
  destruct (rovers c !! i) as [r|] eqn:Hr; [|done].
  unfold lift. destruct (direction libm (heading r)) as [d|e]; [|done].
  rewrite check_position_eq.
  destruct (is_empty c _), (in_grid c _); simpl; try done.
  unfold set_position, bind, get, put.
  by rewrite (alter_present _ _ _ _ Hr).
Qed.


(** [move] as its three branches. *)
Lemma move_at_nonpositive b i n c :
  n <= 0 → move_at libm b i (PyInt n) c = (Return tt, c).
Proof. intros Hn. destruct b; simpl; by destruct (Z.ltb_spec 0 n) as [|_]; [lia|]. Qed.

Lemma move_at_exhausted i n c :
  0 < n → move_at libm 0 i (PyInt n) c = (Raise RecursionLimit, c).
Proof. intros Hn. simpl. by destruct (Z.ltb_spec 0 n) as [_|]; [|lia]. Qed.

Lemma move_at_step b i n c :
  0 < n →
  move_at libm (S b) i (PyInt n) c =
    match unit_step libm i c with
    | (Return _, c1) => move_at libm b i (PyInt (n - 1)) c1
    | (Raise e, c1) => (Raise e, c1)
    end.
Proof.
  intros Hn. simpl. destruct (Z.ltb_spec 0 n) as [_|]; [|lia].
  unfold bind at 1. by destruct (unit_step libm i c) as [[[]|e] c1].
Qed.


(** [move] with a positive integer runs one step and then itself with the
    distance less one, as the source does. *)
Lemma move_unfold i n c :
  0 < n →
  move libm py i (PyInt n) c =
    match unit_step libm i c with
    | (Return _, c1) => move_at libm (spare_steps py) i (PyInt (n - 1)) c1
    | (Raise e, c1) => (Raise e, c1)
    end.
Proof. intros Hn. unfold move, step_budget. by apply move_at_step. Qed.

Lemma translate_zero p : translate p (0, 0, 0) = p.
Proof. destruct p as [[x y] z]. unfold translate. by rewrite !Z.add_0_r. Qed.

(** ** Preservation of the invariants *)

Lemma unique_ids_always c : unique_ids c.
Proof. apply NoDup_fst_map_to_list. Qed.

Lemma new_controller_invariant (b : Box) : invariant (new_controller (Id:=Id) b).
Proof.
  split; [|split]; [| |apply unique_ids_always].
  - intros i r Hir. simpl in Hir. by rewrite lookup_empty in Hir.
  - intros i j ri rj _ Hir. simpl in Hir. by rewrite lookup_empty in Hir.
Qed.

(** Storing under any id a rover that stands on a cell which is empty and in
    the grid keeps the invariants: this covers the insertion of a new rover
    and the commit of a step. *)
Lemma invariant_insert_free c i p h :
  invariant c → is_empty c p = true → in_grid c p = true →
  invariant (MkController (vertices c) (<[i := MkRover p h]> (rovers c))).
Proof.
  intros (Hgrid & Hcol & _) Hempty Hin.
  rewrite is_empty_true in Hempty.
  split; [|split]; [| |apply unique_ids_always].
  - intros j r. simpl. rewrite lookup_insert. case_decide.
    + intros [= <-]. simpl. by rewrite <- Hin.
    + intros Hj. rewrite <- (Hgrid j r Hj). by apply in_grid_vertices.
  - intros j k rj rk Hjk. simpl. rewrite !lookup_insert.
    repeat case_decide; subst.
    + done.
    + intros [= <-] Hk. simpl. intros Heq. by apply (Hempty k rk Hk).
    + intros Hj [= <-]. simpl. by apply (Hempty j rj Hj).
    + by apply Hcol.
Qed.

(** Rewriting a rover's heading keeps the invariants. *)
Lemma invariant_insert_heading c i r h :
  invariant c → rovers c !! i = Some r →
  invariant (MkController (vertices c) (<[i := MkRover (position r) h]> (rovers c))).
Proof.
  intros (Hgrid & Hcol & _) Hir.
  split; [|split]; [| |apply unique_ids_always].
  - intros j rj. simpl. rewrite lookup_insert. case_decide.
    + intros [= <-]. simpl. rewrite <- (Hgrid i r Hir). by apply in_grid_vertices.
    + intros Hj. rewrite <- (Hgrid j rj Hj). by apply in_grid_vertices.
  - intros j k rj rk Hjk. simpl. rewrite !lookup_insert.
    destruct (decide (i = j)) as [<-|Hij], (decide (i = k)) as [<-|Hik].
    + done.
    + intros [= <-] Hk. simpl. by apply (Hcol i k r rk).
    + intros Hj [= <-]. simpl. by apply (Hcol j i rj r).
    + by apply Hcol.
Qed.

Lemma add_rover_invariant i p h c :
  invariant c → invariant (add_rover i p h c).2.
Proof.
  intros Hinv. rewrite add_rover_eq.
  destruct (is_empty c p) eqn:He; simpl; [|done].
  destruct (in_grid c p) eqn:Hg; simpl; [|done].
  destruct (rovers c !! i); simpl; [done|].
  by apply invariant_insert_free.
Qed.

Lemma turn_invariant i a z c :
  invariant c → invariant (turn i a z c).2.
Proof.
  intros Hinv. rewrite turn_eq.
  destruct (orthogonal a && orthogonal z); [|done].
  destruct (rovers c !! i) as [r|] eqn:Hr; simpl; [|done].
  by apply invariant_insert_heading.
Qed.

Lemma unit_step_invariant i c :
  invariant c → invariant (unit_step libm i c).2.
Proof.
  intros Hinv. rewrite unit_step_eq.
  destruct (rovers c !! i) as [r|]; [|done].
  destruct (direction libm (heading r)) as [d|]; [|done]. simpl.
  destruct (is_empty c _) eqn:He; simpl; [|done].
  destruct (in_grid c _) eqn:Hg; simpl; [|done].
  by apply invariant_insert_free.
Qed.

Lemma move_at_invariant b i d c :
  invariant c → invariant (move_at libm b i d c).2.
Proof.
  revert d c. induction b as [|b IH]; intros d c Hinv.
  - destruct d as [n| | | | | |]; try done. simpl. by destruct (0 <? n).
  - destruct d as [n| | | | | |]; try done.
    destruct (Z.ltb_spec 0 n) as [Hn|Hn]; [|by rewrite move_at_nonpositive].
    rewrite move_at_step by done.
    pose proof (unit_step_invariant i c Hinv) as Hstep.
    destruct (unit_step libm i c) as [[[]|e] c1]; simpl in *; [|done].
    by apply IH.
Qed.

Lemma move_invariant i d c :
  invariant c → invariant (move libm py i d c).2.
Proof. apply move_at_invariant. Qed.

Lemma exec_invariant o c :
  invariant c → invariant (exec libm py o c).2.
Proof.
  destruct o; simpl;
    [apply add_rover_invariant | apply turn_invariant | apply move_invariant].
Qed.

(** ** Runs of unit steps *)




Lemma unit_step_return i c c1 :
  unit_step libm i c = (Return tt, c1) →
  ∃ r d, rovers c !! i = Some r ∧ direction libm (heading r) = Return d ∧
         is_empty c (translate (position r) d) = true ∧
         in_grid c (translate (position r) d) = true ∧
         c1 = MkController (vertices c)
                (<[i := MkRover (translate (position r) d) (heading r)]> (rovers c)).
Proof.
  rewrite unit_step_eq. destruct (rovers c !! i) as [r|]; [|done].
  destruct (direction libm (heading r)) as [d|] eqn:Hd; [|done]. simpl.
  destruct (is_empty c _) eqn:He; simpl; [|done].
  destruct (in_grid c _) eqn:Hg; simpl; [|done].
  intros [= <-]. by exists r, d.
Qed.

(** ** The shape test of the vertices *)

Lemma is_triple_eq v :
  isinstance_tuple v && (py_len v =? 3) = is_triple v.
Proof.
  destruct v as [| | | |items| |]; try done.
  destruct items as [|a [|b [|c' [|d l]]]]; try done.
  cbn [isinstance_tuple py_len is_triple andb length].
  apply Z.eqb_neq. lia.
Qed.

Lemma _set_vertices_eq v :
  _set_vertices v =
    if is_pair_of_triples v then Return v else Raise InvalidBoundingBox.
Proof.
  unfold _set_vertices.
  destruct v as [| | | |items| |]; try done.
  destruct items as [|v0 [|v1 [|v2 l]]]; try done.
  - cbn [isinstance_tuple py_len andb length py_item is_pair_of_triples].
    replace (Z.of_nat 2 =? 2) with true by done.
    cbn [lookup list_lookup default from_option id].
    rewrite <- andb_assoc, !is_triple_eq.
    by destruct (is_triple v0), (is_triple v1).
  - cbn [isinstance_tuple py_len andb length is_pair_of_triples].
    replace (Z.of_nat (S (S (S (length l)))) =? 2) with false; [done|].
    symmetry. apply Z.eqb_neq. lia.
Qed.

Lemma is_int_triple_shape v : is_int_triple v = true → is_triple v = true.
Proof.
  destruct v as [| | | |items| |]; try done.
  by destruct items as [|a [|b [|c' [|d l]]]].
Qed.

(** Two triples of integers have the shape the setter tests for. *)
Lemma is_int_box_shape v : is_int_box v = true → is_pair_of_triples v = true.
Proof.
  destruct v as [| | | |items| |]; try done.
  destruct items as [|v0 [|v1 [|v2 l]]]; try done. simpl.
  intros [H0 H1]%andb_prop.
  by rewrite (is_int_triple_shape _ H0), (is_int_triple_shape _ H1).
Qed.

Lemma box_of_pyval_of_box (b : Box) : box_of (pyval_of_box b) = Some b.
Proof. by destruct b as [[[x0 y0] z0] [[x1 y1] z1]]. Qed.

Lemma is_int_box_pyval_of_box (b : Box) : is_int_box (pyval_of_box b) = true.
Proof. by destruct b as [[[x0 y0] z0] [[x1 y1] z1]]. Qed.

(** ** Quarter turns *)

Lemma orthogonal_half_pi : orthogonal PyFloat.half_pi = true.
Proof. vm_compute. reflexivity. Qed.

Lemma orthogonal_zero : orthogonal 0 = true.
Proof. vm_compute. reflexivity. Qed.

Lemma quarter_turn_eq i r c :
  rovers c !! i = Some r →
  turn i PyFloat.half_pi 0 c =
    (Return tt,
     MkController (vertices c)
       (<[i := MkRover (position r)
                 ((heading r).1 + PyFloat.half_pi, (heading r).2 + 0)%float]>
          (rovers c))).
Proof.
  intros Hr. rewrite turn_eq, orthogonal_half_pi, orthogonal_zero. simpl.
  by rewrite Hr.
Qed.

(** ** The claims *)

(** C1 (as amended).  [add_rover] with an id that is already present always
    fails and leaves the controller as it was; the position is checked
    before the id, so the failure is [PositionOccupied] when the cell is
    occupied, [OutOfBounds] when it is free but outside the grid, and
    [DuplicateId] only when the cell is free and inside the grid. *)
Theorem add_rover_duplicate i p h c :
  is_Some (rovers c !! i) →
  add_rover i p h c =
    (Raise (if negb (is_empty c p) then PositionOccupied
            else if negb (in_grid c p) then OutOfBounds
            else DuplicateId), c).
Proof.
  intros [r Hr]. rewrite add_rover_eq, Hr.
  by destruct (is_empty c p), (in_grid c p).
Qed.

(** C2 (as amended).  [turn] with an id that is absent always fails and
    leaves the controller as it was; the deltas are tested before the rover
    is looked up, so the failure is [RoverNotFound] when both deltas are
    exact multiples of pi/2 and [NonOrthogonalTurn] otherwise. *)
Theorem turn_absent i a z c :
  rovers c !! i = None →
  turn i a z c =
    (Raise (if orthogonal a && orthogonal z then RoverNotFound
            else NonOrthogonalTurn), c).
Proof.
  intros Hr. rewrite turn_eq, Hr. by destruct (orthogonal a && orthogonal z).
Qed.

(** C3 (as amended).  For a rover whose heading converts to the zero
    direction vector, [move] with a positive distance does not move the
    rover and leaves the controller as it was, but it is not silent: the
    candidate cell is the rover's own cell, which [check_position] finds
    occupied, so the call fails with [PositionOccupied] at its first step. *)
Theorem move_zero_direction i r n c :
  rovers c !! i = Some r →
  direction libm (heading r) = Return (0, 0, 0) →
  0 < n →
  move libm py i (PyInt n) c = (Raise PositionOccupied, c).
Proof.
  intros Hr Hd Hn. rewrite move_unfold by done.
  rewrite unit_step_eq, Hr, Hd. simpl.
  by rewrite translate_zero, (is_empty_own c i r Hr).
Qed.

(** C4 (as amended).  The setter of [vertices], and with it the
    construction of a controller, fails with [InvalidBoundingBox] exactly
    when the argument is not a tuple of two tuples of three items; the items
    themselves are not inspected, so an accepted value is stored as it is,
    whatever the types of its components; every pair of integer triples has
    the accepted shape. *)
Theorem set_vertices_shape v :
  _set_vertices v =
    (if is_pair_of_triples v then Return v else Raise InvalidBoundingBox) ∧
  __init__ (Id:=Id) v =
    (if is_pair_of_triples v then Return (v, ∅) else Raise InvalidBoundingBox) ∧
  (is_int_box v = true → is_pair_of_triples v = true).
Proof.
  split; [apply _set_vertices_eq|]. split; [|apply is_int_box_shape].
  unfold __init__. rewrite _set_vertices_eq.
  by destruct (is_pair_of_triples v).
Qed.

(** C5.  From a controller that satisfies the invariants (every rover
    inside the bounding box, no two ids on one cell, ids unique), the
    controller after each operation of any sequence of [add_rover], [turn]
    and [move] calls satisfies them again, whether the operation returned or
    raised; a freshly constructed controller satisfies them. *)
Theorem invariant_trace ops c :
  invariant c → Forall invariant (trace libm py ops c).
Proof.
  revert c. induction ops as [|o ops IH]; intros c Hinv; simpl.
  - constructor.
  - pose proof (exec_invariant o c Hinv). constructor; [done|]. by apply IH.
Qed.




(** C8.  For a rover that exists: [turn] with a delta whose floating
    remainder by pi/2 is not equal to 0.0 fails with [NonOrthogonalTurn] and
    leaves the controller (so the heading) as it was; with both remainders
    equal to 0.0 the deltas are added to the heading component by component
    and nothing is reduced modulo 2 pi.  The test has no tolerance: the
    float next above pi/2 is refused.  Four turns by pi/2 leave the azimuth
    four float additions of pi/2 above where it was; from azimuth 0.0 that
    is exactly the float 2 pi, not 0.0. *)
Theorem turn_exact_multiples i r a z c :
  rovers c !! i = Some r →
  (orthogonal a && orthogonal z = false →
     turn i a z c = (Raise NonOrthogonalTurn, c)) ∧
  (orthogonal a && orthogonal z = true →
     turn i a z c =
       (Return tt,
        MkController (vertices c)
          (<[i := MkRover (position r)
                    ((heading r).1 + a, (heading r).2 + z)%float]>
             (rovers c)))) ∧
  quarter_turns 4 i c =
    (Return tt,
     MkController (vertices c)
       (<[i := MkRover (position r)
                 ((heading r).1 + PyFloat.half_pi + PyFloat.half_pi
                  + PyFloat.half_pi + PyFloat.half_pi,
                  (heading r).2 + 0 + 0 + 0 + 0)%float]>
          (rovers c))) ∧
  orthogonal (next_up PyFloat.half_pi) = false ∧
  (0 + PyFloat.half_pi + PyFloat.half_pi + PyFloat.half_pi + PyFloat.half_pi
   = 2 * PyFloat.pi)%float ∧
  (2 * PyFloat.pi =? 0)%float = false.
Proof.
  intros Hr. split; [|split; [|split; [|split; [|split]]]].
  - intros Hno. by rewrite turn_eq, Hno.
  - intros Hyes. by rewrite turn_eq, Hyes, Hr.
  - simpl. unfold bind.
    rewrite (quarter_turn_eq i r c Hr).
    rewrite (quarter_turn_eq i _ _ (lookup_insert_eq _ _ _)). simpl.
    rewrite (quarter_turn_eq i _ _ (lookup_insert_eq _ _ _)). simpl.
    rewrite (quarter_turn_eq i _ _ (lookup_insert_eq _ _ _)). simpl.
    unfold ret. by rewrite !insert_insert_eq.
  - vm_compute. reflexivity.
  - vm_compute. reflexivity.
  - vm_compute. reflexivity.
Qed.

(** C9.  [in_grid] holds of [(x, y, z)] exactly when each coordinate lies in
    the closed interval between the two vertices' coordinates on its axis,
    taken in either order: it is false of a point beyond either vertex's
    extent on some axis, it gives the same answer when the vertices are
    swapped, and it holds of both vertices. *)
Theorem in_grid_closed_box (v0 v1 : Position) (rs : gmap Id Rover) x y z :
  (in_grid (MkController (v0, v1) rs) (x, y, z) = true ↔
     between v0.1.1 v1.1.1 x ∧ between v0.1.2 v1.1.2 y ∧ between v0.2 v1.2 z) ∧
  (Z.max v0.1.1 v1.1.1 < x ∨ x < Z.min v0.1.1 v1.1.1 ∨
   Z.max v0.1.2 v1.1.2 < y ∨ y < Z.min v0.1.2 v1.1.2 ∨
   Z.max v0.2 v1.2 < z ∨ z < Z.min v0.2 v1.2 →
     in_grid (MkController (v0, v1) rs) (x, y, z) = false) ∧
  in_grid (MkController (v1, v0) rs) (x, y, z) =
    in_grid (MkController (v0, v1) rs) (x, y, z) ∧
  in_grid (MkController (v0, v1) rs) v0 = true ∧
  in_grid (MkController (v0, v1) rs) v1 = true.
Proof.
  split; [apply (in_grid_between (MkController (v0, v1) rs))|].
  split; [|split].
  - intros Hout. apply not_true_is_false. rewrite in_grid_between. simpl.
    unfold between. lia.
  - apply eq_true_iff_eq. rewrite !in_grid_between. simpl.
    unfold between. lia.
  - destruct v0 as [[a0 b0] c0], v1 as [[a1 b1] c1].
    split; apply in_grid_between; simpl; unfold between; lia.
Qed.


End Properties.

(** * The claims on the reference driver's data *)

Local Open Scope string_scope.

(** The driver's first moves: from [(1, 2, 0)] with heading [(pi/2, pi/2)] the
    direction is [(0, 1, 0)]; a quarter turn to azimuth [pi] makes it
    [(-1, 0, 0)]. *)
Example driver_direction :
  direction glibc_samples (PyFloat.half_pi, PyFloat.half_pi) = Return (0, 1, 0) ∧
  direction glibc_samples (PyFloat.pi, PyFloat.half_pi) = Return (-1, 0, 0).
Proof. split; vm_compute; reflexivity. Qed.

(** Five steps north from [(1, 2, 0)] in the 6 x 6 grid: three are committed,
    the fourth leaves the grid, and the rover stays on [(1, 5, 0)]. *)
Example driver_move_partial :
  move glibc_samples cpython_default "rover1" (PyInt 5) driver_start =
    (Raise OutOfBounds,
     MkController driver_box
       {[ "rover1" := MkRover (1, 5, 0) (PyFloat.half_pi, PyFloat.half_pi) ]}).
Proof. vm_compute. reflexivity. Qed.

(** C1, counterexample: [rover1] exists; adding it again on its own cell
    raises [PositionOccupied], and on a cell outside the grid [OutOfBounds]:
    neither call raises [DuplicateId]. *)
Lemma add_rover_duplicate_not_always_DuplicateId :
  is_Some (rovers driver_start !! "rover1") ∧
  add_rover "rover1" (1, 2, 0) (0, 0)%float driver_start
    = (Raise PositionOccupied, driver_start) ∧
  add_rover "rover1" (9, 9, 9) (0, 0)%float driver_start
    = (Raise OutOfBounds, driver_start) ∧
  add_rover "rover1" (1, 2, 0) (0, 0)%float driver_start
    ≠ (Raise DuplicateId, driver_start).
Proof.
  split; [by eexists|]. split; [vm_compute; reflexivity|].
  split; [vm_compute; reflexivity|].
  intros Heq. apply (f_equal fst) in Heq. vm_compute in Heq. discriminate.
Qed.

(** C1, witness: on a free cell inside the grid the duplicate id is what
    the call reports. *)
Lemma add_rover_duplicate_witness :
  add_rover "rover1" (2, 2, 0) (0, 0)%float driver_start
    = (Raise DuplicateId, driver_start).
Proof.
  refine (eq_trans
            (add_rover_duplicate "rover1" (2, 2, 0) (0, 0)%float driver_start _) _).
  - eexists. vm_compute. reflexivity.
  - vm_compute. reflexivity.
Defined.

(** C2, counterexample: [rover9] does not exist; turning it by 1.0 radian
    raises [NonOrthogonalTurn], not [RoverNotFound]. *)
Lemma turn_absent_not_always_RoverNotFound :
  rovers driver_start !! "rover9" = None ∧
  turn "rover9" 1 0 driver_start = (Raise NonOrthogonalTurn, driver_start) ∧
  turn "rover9" 1 0 driver_start ≠ (Raise RoverNotFound, driver_start).
Proof.
  split; [vm_compute; reflexivity|]. split; [vm_compute; reflexivity|].
  intros Heq. apply (f_equal fst) in Heq. vm_compute in Heq. discriminate.
Qed.

(** C2, witness: with a quarter turn the missing rover is what the call
    reports. *)
Lemma turn_absent_witness :
  turn "rover9" PyFloat.half_pi 0 driver_start
    = (Raise RoverNotFound, driver_start).
Proof.
  refine (eq_trans (turn_absent "rover9" PyFloat.half_pi 0 driver_start _) _).
  - vm_compute. reflexivity.
  - vm_compute. reflexivity.
Defined.

(** C3, counterexample: the heading [(0.5, 0.5)] is not a multiple of pi/2
    and converts to the zero vector; moving that rover by one unit raises
    [PositionOccupied] instead of returning. *)
Lemma move_zero_direction_raises :
  rovers skewed_start !! "rover1" = Some (MkRover (1, 2, 0) (0x1p-1, 0x1p-1)%float) ∧
  orthogonal 0x1p-1 = false ∧
  direction glibc_samples (0x1p-1, 0x1p-1)%float = Return (0, 0, 0) ∧
  move glibc_samples cpython_default "rover1" (PyInt 1) skewed_start
    = (Raise PositionOccupied, skewed_start) ∧
  move glibc_samples cpython_default "rover1" (PyInt 1) skewed_start
    ≠ (Return tt, skewed_start).
Proof.
  split; [vm_compute; reflexivity|]. split; [vm_compute; reflexivity|].
  split; [vm_compute; reflexivity|]. split; [vm_compute; reflexivity|].
  intros Heq. apply (f_equal fst) in Heq. vm_compute in Heq. discriminate.
Qed.

(** C3, witness. *)
Lemma move_zero_direction_witness :
  move glibc_samples cpython_default "rover1" (PyInt 3) skewed_start
    = (Raise PositionOccupied, skewed_start).
Proof.
  apply (move_zero_direction glibc_samples cpython_default "rover1"
           (MkRover (1, 2, 0) (0x1p-1, 0x1p-1)%float) 3 skewed_start).
  - vm_compute. reflexivity.
  - vm_compute. reflexivity.
  - reflexivity.
Defined.

(** C4, counterexample: [((0.5, 'a', None), (1, 2, 3))] is not a pair of
    integer triples, yet the setter stores it and the constructor accepts
    it. *)
Lemma set_vertices_accepts_non_integers :
  is_int_box fractional_box = false ∧
  _set_vertices fractional_box = Return fractional_box ∧
  __init__ (Id:=string) fractional_box = Return (fractional_box, ∅) ∧
  _set_vertices fractional_box ≠ Raise InvalidBoundingBox.
Proof. repeat split; try reflexivity. discriminate. Qed.

(** C4, witness: the driver's box of integers has the accepted shape, and is
    stored as given. *)
Lemma set_vertices_shape_witness :
  is_pair_of_triples (pyval_of_box driver_box) = true ∧
  _set_vertices (pyval_of_box driver_box) = Return (pyval_of_box driver_box).
Proof.
  split.
  - apply (set_vertices_shape (Id:=string) (pyval_of_box driver_box)).
    reflexivity.
  - apply (set_vertices_shape (Id:=string) (pyval_of_box driver_box)).
Defined.

(** C5, witness: the driver's opening, followed by a move that runs into
    the edge of the grid. *)
Lemma invariant_trace_witness :
  Forall invariant
    (trace glibc_samples cpython_default
       [ AddRover "rover1" (1, 2, 0) (PyFloat.half_pi, PyFloat.half_pi);
         Turn "rover1" PyFloat.half_pi 0;
         Move "rover1" (PyInt 9) ]
       (new_controller driver_box)).
Proof.
  apply (invariant_trace glibc_samples cpython_default). apply new_controller_invariant.
Defined.





(** C8, witness: the driver's first turn, and a turn by 1.0 radian. *)
Lemma turn_exact_multiples_witness :
  turn "rover1" PyFloat.half_pi 0 driver_start =
    (Return tt,
     MkController driver_box
       {[ "rover1" := MkRover (1, 2, 0) (PyFloat.pi, PyFloat.half_pi) ]}) ∧
  turn "rover1" 1 0 driver_start = (Raise NonOrthogonalTurn, driver_start).
Proof.
  pose proof (turn_exact_multiples "rover1"
                (MkRover (1, 2, 0) (PyFloat.half_pi, PyFloat.half_pi))) as Hturn.
  split.
  - refine (eq_trans
              (proj1 (proj2 (Hturn PyFloat.half_pi 0%float driver_start _)) _) _);
      vm_compute; reflexivity.
  - apply (Hturn 1%float 0%float driver_start); vm_compute; reflexivity.
Defined.

(** C9, witness: with the driver's vertices given in the opposite order, a
    cell inside the grid and a cell one step beyond its edge. *)
Lemma in_grid_closed_box_witness :
  in_grid (MkController ((5, 5, 0), (0, 0, 0)) (∅ : gmap string Rover)) (1, 2, 0)
    = true ∧
  in_grid (MkController ((5, 5, 0), (0, 0, 0)) (∅ : gmap string Rover)) (1, 6, 0)
    = false.
Proof.
  split.
  - apply (proj1 (in_grid_closed_box (5, 5, 0) (0, 0, 0) (∅ : gmap string Rover) 1 2 0)).
    unfold between. simpl. lia.
  - apply (proj1 (proj2
             (in_grid_closed_box (5, 5, 0) (0, 0, 0) (∅ : gmap string Rover) 1 6 0))).
    simpl. lia.
Defined.



(** * Further properties of the controller *)

Local Open Scope Z_scope.

Section Frames.

Context {Id : Type} `{Countable Id}.
Variable libm : Libm.
Variable py : Interpreter.

Implicit Types (c : controller Id) (i j : Id) (p d : Position) (h : Heading).

Lemma controller_eta c : MkController (vertices c) (rovers c) = c.
Proof. by destruct c. Qed.

Lemma rover_eta (r : Rover) : MkRover (position r) (heading r) = r.
Proof. by destruct r. Qed.

(** ** Occupancy *)

(** X1.  [is_empty] answers whether no rover of the dictionary, under any id,
    stands on the cell. *)
Theorem is_empty_iff_no_rover c p :
  (is_empty c p = true ↔ ∀ i r, rovers c !! i = Some r → position r ≠ p) ∧
  (is_empty c p = false ↔ ∃ i r, rovers c !! i = Some r ∧ position r = p).
Proof. split; [apply is_empty_true | apply is_empty_false]. Qed.

(** X2.  [check_position] never writes to the controller; it returns exactly
    when the cell is free of rovers and inside the grid, raises
    [PositionOccupied] exactly when some rover stands on the cell, whether or
    not the cell is inside the grid, and raises [OutOfBounds] exactly when
    the cell is free but outside the grid. *)
Theorem check_position_cases p c :
  (check_position p c).2 = c ∧
  ((check_position p c).1 = Return tt ↔
     is_empty c p = true ∧ in_grid c p = true) ∧
  ((check_position p c).1 = Raise PositionOccupied ↔
     ∃ i r, rovers c !! i = Some r ∧ position r = p) ∧
  ((check_position p c).1 = Raise OutOfBounds ↔
     is_empty c p = true ∧ in_grid c p = false).
Proof.
  rewrite check_position_eq, <- is_empty_false. simpl.
  destruct (is_empty c p), (in_grid c p); simpl; intuition congruence.
Qed.

(** ** Adding rovers *)

(** X3.  [add_rover] returns exactly when the id is new and the cell is free
    and inside the grid; whenever it raises, the controller is as it was. *)
Theorem add_rover_returns_iff i p h c :
  ((add_rover i p h c).1 = Return tt ↔
     rovers c !! i = None ∧ is_empty c p = true ∧ in_grid c p = true) ∧
  (∀ e, (add_rover i p h c).1 = Raise e → (add_rover i p h c).2 = c).
Proof.
  rewrite add_rover_eq.
  destruct (is_empty c p), (in_grid c p), (rovers c !! i); simpl;
    intuition congruence.
Qed.

(** X4.  After an [add_rover] that returned, [get_rover] with the same id
    returns the position and the heading that were supplied, every other id
    maps to the rover it mapped to before, and the vertices are the same. *)
Theorem add_rover_get_rover i p h c c' :
  add_rover i p h c = (Return tt, c') →
  get_rover i c' = (Return (MkRover p h), c') ∧
  (∀ j, j ≠ i → rovers c' !! j = rovers c !! j) ∧
  vertices c' = vertices c.
Proof.
  rewrite add_rover_eq.
  destruct (is_empty c p); simpl; [|done].
  destruct (in_grid c p); simpl; [|done].
  destruct (rovers c !! i); [done|]. intros [= <-].
  rewrite get_rover_eq. simpl. rewrite lookup_insert_eq.
  split; [done|]. split; [|done].
  intros j Hj. by rewrite lookup_insert_ne.
Qed.

(** X5.  Once a rover has been added on a cell, a further [add_rover] on that
    cell fails with [PositionOccupied] under every id and heading, and leaves
    the controller as the first call made it. *)
Theorem add_rover_twice_same_cell i j p h h' c c' :
  add_rover i p h c = (Return tt, c') →
  add_rover j p h' c' = (Raise PositionOccupied, c').
Proof.
  rewrite (add_rover_eq i).
  destruct (is_empty c p); simpl; [|done].
  destruct (in_grid c p); simpl; [|done].
  destruct (rovers c !! i); [done|]. intros [= <-].
  pose proof (is_empty_own
                (MkController (vertices c) (<[i := MkRover p h]> (rovers c)))
                i (MkRover p h) (lookup_insert_eq _ _ _)) as Hocc.
  simpl in Hocc. by rewrite add_rover_eq, Hocc.
Qed.

(** ** What [turn] and [move] leave alone *)

(** X6.  [turn], whatever its arguments and whether it returns or raises,
    leaves the vertices, every other rover and the position of the rover it
    names as they were. *)
Theorem turn_frame i a z c :
  vertices (turn i a z c).2 = vertices c ∧
  (∀ j, j ≠ i → rovers (turn i a z c).2 !! j = rovers c !! j) ∧
  position <$> rovers (turn i a z c).2 !! i = position <$> rovers c !! i.
Proof.
  rewrite turn_eq. destruct (orthogonal a && orthogonal z); [|done].
  destruct (rovers c !! i) as [r|] eqn:Hr; simpl; [|by rewrite ?Hr].
  split; [done|]. split.
  - intros j Hj. by rewrite lookup_insert_ne.
  - by rewrite lookup_insert_eq.
Qed.

Lemma unit_step_frame i c :
  vertices (unit_step libm i c).2 = vertices c ∧
  (∀ j, j ≠ i → rovers (unit_step libm i c).2 !! j = rovers c !! j) ∧
  heading <$> rovers (unit_step libm i c).2 !! i = heading <$> rovers c !! i.
Proof.
  rewrite unit_step_eq. destruct (rovers c !! i) as [r|] eqn:Hr; [|by simpl; rewrite ?Hr].
  destruct (direction libm (heading r)) as [d|]; [|by simpl; rewrite ?Hr]. simpl.
  destruct (is_empty c _); simpl; [|by rewrite ?Hr].
  destruct (in_grid c _); simpl; [|by rewrite ?Hr].
  split; [done|]. split.
  - intros j Hj. by rewrite lookup_insert_ne.
  - by rewrite lookup_insert_eq.
Qed.

Lemma move_at_frame b i dist c :
  vertices (move_at libm b i dist c).2 = vertices c ∧
  (∀ j, j ≠ i → rovers (move_at libm b i dist c).2 !! j = rovers c !! j) ∧
  heading <$> rovers (move_at libm b i dist c).2 !! i = heading <$> rovers c !! i.
Proof.
  revert dist c. induction b as [|b IH]; intros dist c.
  - destruct dist as [n| | | | | |]; try done. simpl. by destruct (0 <? n)%Z.
  - destruct dist as [n| | | | | |]; try done.
    destruct (Z.ltb_spec 0 n) as [Hn|Hn]; [|by rewrite move_at_nonpositive].
    rewrite move_at_step by done.
    destruct (unit_step_frame i c) as (Hv & Hother & Hhead).
    destruct (unit_step libm i c) as [[[]|e] c1]; simpl in *; [|done].
    destruct (IH (PyInt (n - 1)) c1) as (Hv1 & Hother1 & Hhead1).
    split; [congruence|]. split; [|congruence].
    intros j Hj. by rewrite Hother1, Hother.
Qed.

(** X7.  [move], whatever its arguments and whether it returns or raises
    (also when it raises after some steps), leaves the vertices, every other
    rover and the heading of the rover it names as they were. *)
Theorem move_frame i dist c :
  vertices (move libm py i dist c).2 = vertices c ∧
  (∀ j, j ≠ i → rovers (move libm py i dist c).2 !! j = rovers c !! j) ∧
  heading <$> rovers (move libm py i dist c).2 !! i = heading <$> rovers c !! i.
Proof. apply move_at_frame. Qed.

End Frames.

Section Moves.

Context {Id : Type} `{Countable Id}.
Variable libm : Libm.
Variable py : Interpreter.

Implicit Types (c : controller Id) (i j : Id) (p d : Position) (h : Heading).

(** ** Moves that stop at their first step *)

(** X8.  When the cell in front of a rover is occupied by a rover, [move]
    with a positive distance fails with [PositionOccupied] and leaves the
    controller, the mover's position included, as it was. *)
Theorem move_blocked_by_rover i j r rj d n c :
  rovers c !! i = Some r →
  direction libm (heading r) = Return d →
  rovers c !! j = Some rj →
  position rj = translate (position r) d →
  0 < n →
  move libm py i (PyInt n) c = (Raise PositionOccupied, c).
Proof.
  intros Hr Hd Hj Hpos Hn. rewrite move_unfold by done.
  rewrite unit_step_eq, Hr, Hd. simpl.
  pose proof (is_empty_own c j rj Hj) as Hocc. rewrite Hpos in Hocc.
  by rewrite Hocc.
Qed.

(** X9.  When the cell in front of a rover is free but outside the grid,
    [move] with a positive distance fails with [OutOfBounds] and leaves the
    controller as it was. *)
Theorem move_blocked_by_edge i r d n c :
  rovers c !! i = Some r →
  direction libm (heading r) = Return d →
  is_empty c (translate (position r) d) = true →
  in_grid c (translate (position r) d) = false →
  0 < n →
  move libm py i (PyInt n) c = (Raise OutOfBounds, c).
Proof.
  intros Hr Hd Hempty Hgrid Hn. rewrite move_unfold by done.
  by rewrite unit_step_eq, Hr, Hd; simpl; rewrite Hempty, Hgrid.
Qed.


Lemma to_int_raise f e : PyFloat.to_int f = Raise e → e = ConversionError.
Proof. unfold PyFloat.to_int. destruct (Prim2SF f); congruence. Qed.

Lemma to_int_nan : PyFloat.to_int nan = Raise ConversionError.
Proof. reflexivity. Qed.

(** X11.  Headings are not validated when a rover is added; when the cosine
    of a rover's zenith is not a number, the conversion of the direction to
    integers raises, and [move] with a positive distance fails with that
    conversion error at its first step, leaving the controller as it was. *)
Theorem move_conversion_error i r n c :
  rovers c !! i = Some r →
  math_cos libm (heading r).2 = nan →
  0 < n →
  move libm py i (PyInt n) c = (Raise ConversionError, c).
Proof.
  intros Hr Hnan Hn. rewrite move_unfold by done.
  rewrite unit_step_eq, Hr.
  assert (direction libm (heading r) = Raise ConversionError) as ->; [|done].
  unfold direction. destruct (heading r) as [az ze]. simpl in Hnan.
  destruct (PyFloat.to_int (math_sin libm ze * math_cos libm az)) as [dx|e] eqn:Hx;
    [|by rewrite (to_int_raise _ _ Hx)].
  destruct (PyFloat.to_int (math_sin libm ze * math_sin libm az)) as [dy|e] eqn:Hy;
    [|by rewrite (to_int_raise _ _ Hy)].
  by rewrite Hnan, to_int_nan.
Qed.

(** ** Moves along a straight line *)

Lemma advance_0 p d : advance p d 0 = p.
Proof.
  destruct p as [[x y] z], d as [[dx dy] dz]. unfold advance.
  f_equal; [f_equal|]; lia.
Qed.

Lemma advance_1 p d : advance p d 1 = translate p d.
Proof.
  destruct p as [[x y] z], d as [[dx dy] dz]. unfold advance, translate.
  f_equal; [f_equal|]; lia.
Qed.

Lemma advance_translate p d k :
  advance (translate p d) d k = advance p d (k + 1).
Proof.
  destruct p as [[x y] z], d as [[dx dy] dz]. unfold advance, translate.
  f_equal; [f_equal|]; lia.
Qed.

(** Two different cells of a line exist only when the direction is not the
    zero vector. *)
Lemma advance_eq p d a b :
  advance p d a = advance p d b → a ≠ b → translate p d = p.
Proof.
  destruct p as [[x y] z], d as [[dx dy] dz]. unfold advance, translate.
  intros [= Hx Hy Hz] Hab.
  assert (dx = 0) as -> by nia. assert (dy = 0) as -> by nia.
  assert (dz = 0) as -> by nia.
  f_equal; [f_equal|]; lia.
Qed.

Lemma move_at_straight b n i r d c :
  rovers c !! i = Some r →
  direction libm (heading r) = Return d →
  0 <= n <= Z.of_nat b →
  (∀ k, 1 <= k <= n →
     is_empty c (advance (position r) d k) = true ∧
     in_grid c (advance (position r) d k) = true) →
  move_at libm b i (PyInt n) c =
    (Return tt,
     MkController (vertices c)
       (<[i := MkRover (advance (position r) d n) (heading r)]> (rovers c))).
Proof.
  revert n c r. induction b as [|b IH]; intros n c r Hr Hd Hn Hfree.
  - assert (n = 0) as -> by lia. rewrite move_at_nonpositive by done.
    by rewrite advance_0, rover_eta, (insert_id _ _ _ Hr), controller_eta.
  - destruct (decide (n = 0)) as [->|Hpos].
    { rewrite move_at_nonpositive by done.
      by rewrite advance_0, rover_eta, (insert_id _ _ _ Hr), controller_eta. }
    rewrite move_at_step by lia. rewrite unit_step_eq, Hr, Hd. simpl.
    destruct (Hfree 1) as [He1 Hg1]; [lia|]. rewrite advance_1 in He1, Hg1.
    rewrite He1, Hg1. simpl.
    set (r1 := MkRover (translate (position r) d) (heading r)).
    set (c1 := MkController (vertices c) (<[i := r1]> (rovers c))).
    rewrite (IH (n - 1) c1 r1).
    + subst c1 r1. simpl. rewrite insert_insert_eq, advance_translate.
      by replace (n - 1 + 1) with n by lia.
    + subst c1. simpl. apply lookup_insert_eq.
    + done.
    + lia.
    + intros k Hk. subst r1. simpl. rewrite advance_translate.
      destruct (Hfree (k + 1)) as [He Hg]; [lia|]. split; [|done].
      apply is_empty_true. intros j rj. subst c1. simpl.
      rewrite lookup_insert. case_decide as Hij.
      * intros [= <-]. simpl. rewrite <- advance_1. intros Heq.
        apply advance_eq in Heq; [|lia].
        apply (proj1 (is_empty_true c _) He1 i r Hr). by rewrite Heq.
      * intros Hj. by apply (proj1 (is_empty_true c _) He j rj Hj).
Qed.

(** X12.  When the [n] cells in front of a rover, along the truncated
    direction of its heading, are all free and inside the grid, and [n] steps
    fit under the recursion limit, [move] with distance [n] returns and
    leaves the rover [n] cells further along that direction, with the same
    heading; nothing else changes. *)
Theorem move_straight i r d n c :
  rovers c !! i = Some r →
  direction libm (heading r) = Return d →
  0 <= n <= Z.of_nat (step_budget py) →
  (∀ k, 1 <= k <= n →
     is_empty c (advance (position r) d k) = true ∧
     in_grid c (advance (position r) d k) = true) →
  move libm py i (PyInt n) c =
    (Return tt,
     MkController (vertices c)
       (<[i := MkRover (advance (position r) d n) (heading r)]> (rovers c))).
Proof. intros Hr Hd Hn Hfree. by apply move_at_straight. Qed.

Lemma move_at_on_line b n i r d c :
  rovers c !! i = Some r →
  direction libm (heading r) = Return d →
  ∃ k res, 0 <= k <= Z.max 0 n ∧
       move_at libm b i (PyInt n) c =
         (res,
          MkController (vertices c)
            (<[i := MkRover (advance (position r) d k) (heading r)]> (rovers c))) ∧
       (k = Z.max 0 n → res = Return tt) ∧
       (k < Z.max 0 n → ∃ e, res = Raise e).
Proof.
  assert (∀ c r, rovers c !! i = Some r →
            MkController (vertices c)
              (<[i := MkRover (advance (position r) d 0) (heading r)]> (rovers c))
            = c) as Hstay.
  { intros c0 r0 Hr0.
    by rewrite advance_0, rover_eta, (insert_id _ _ _ Hr0), controller_eta. }
  revert n c r. induction b as [|b IH]; intros n c r Hr Hd.
  - destruct (Z.ltb_spec 0 n) as [Hn|Hn].
    + exists 0, (Raise RecursionLimit). split; [lia|].
      rewrite move_at_exhausted, (Hstay c r Hr) by done.
      split; [done|]. split; [lia|]. by eexists.
    + exists 0, (Return tt). split; [lia|].
      rewrite move_at_nonpositive, (Hstay c r Hr) by done.
      split; [done|]. split; [done|lia].
  - destruct (Z.ltb_spec 0 n) as [Hn|Hn]; cycle 1.
    { exists 0, (Return tt). split; [lia|].
      rewrite move_at_nonpositive, (Hstay c r Hr) by done.
      split; [done|]. split; [done|lia]. }
    rewrite move_at_step by done. rewrite unit_step_eq, Hr, Hd. simpl.
    destruct (is_empty c (translate (position r) d)); simpl; cycle 1.
    { exists 0, (Raise PositionOccupied). split; [lia|].
      rewrite (Hstay c r Hr). split; [done|]. split; [lia|]. by eexists. }
    destruct (in_grid c (translate (position r) d)); simpl; cycle 1.
    { exists 0, (Raise OutOfBounds). split; [lia|].
      rewrite (Hstay c r Hr). split; [done|]. split; [lia|]. by eexists. }
    set (r1 := MkRover (translate (position r) d) (heading r)).
    set (c1 := MkController (vertices c) (<[i := r1]> (rovers c))).
    destruct (IH (n - 1) c1 r1) as (k & res & Hk & Hrun & Hall & Hpart).
    + subst c1. simpl. apply lookup_insert_eq.
    + done.
    + exists (k + 1), res. split; [lia|]. rewrite Hrun.
      subst c1 r1. simpl. rewrite insert_insert_eq, advance_translate.
      split; [done|]. split; intros Hk'; [apply Hall | apply Hpart]; lia.
Qed.


(** ** Moves in a row *)

(** The room under the recursion limit does not matter to a distance that
    fits. *)
Lemma move_at_room b b' n i c :
  n <= Z.of_nat b → n <= Z.of_nat b' →
  move_at libm b i (PyInt n) c = move_at libm b' i (PyInt n) c.
Proof.
  revert b' n c. induction b as [|b IH]; intros b' n c Hb Hb'.
  - by rewrite !move_at_nonpositive by lia.
  - destruct (Z.ltb_spec 0 n) as [Hn|Hn]; [|by rewrite !move_at_nonpositive].
    destruct b' as [|b']; [lia|]. rewrite !move_at_step by done.
    destruct (unit_step libm i c) as [[[]|e] c1]; [|done].
    apply IH; lia.
Qed.

Lemma move_at_add ba bb bab a b i c :
  0 <= a <= Z.of_nat ba → 0 <= b <= Z.of_nat bb → a + b <= Z.of_nat bab →
  bind (move_at libm ba i (PyInt a)) (λ _, move_at libm bb i (PyInt b)) c =
    move_at libm bab i (PyInt (a + b)) c.
Proof.
  revert bab a c. induction ba as [|ba IH]; intros bab a c Ha Hb Hab.
  - assert (a = 0) as -> by lia. unfold bind.
    rewrite move_at_nonpositive by done. rewrite Z.add_0_l.
    apply move_at_room; lia.
  - destruct (Z.ltb_spec 0 a) as [Hpos|Hle].
    + destruct bab as [|bab]; [lia|]. unfold bind.
      rewrite !move_at_step by lia.
      destruct (unit_step libm i c) as [[[]|e] c1]; [|done].
      replace (a + b - 1) with (a - 1 + b) by lia.
      apply (IH bab (a - 1) c1); lia.
    + assert (a = 0) as -> by lia. unfold bind.
      rewrite move_at_nonpositive by done. rewrite Z.add_0_l.
      apply move_at_room; lia.
Qed.

(** X14.  Two [move] calls in a row with distances [a >= 0] and [b >= 0], the
    second made only if the first returned, do what one call with distance
    [a + b] does, as long as [a + b] steps fit under the recursion limit: the
    same result and the same controller, also when a step raises. *)
Theorem move_additive i a b c :
  0 <= a → 0 <= b → a + b <= Z.of_nat (step_budget py) →
  bind (move libm py i (PyInt a)) (λ _, move libm py i (PyInt b)) c =
    move libm py i (PyInt (a + b)) c.
Proof. intros Ha Hb Hab. unfold move. apply move_at_add; lia. Qed.

(** X15.  When no two rovers share a cell, a [move] with a positive distance
    that returns has left the rover's starting cell free: nothing stands on
    it afterwards. *)
Theorem move_frees_start i r n c c' :
  no_collision c →
  rovers c !! i = Some r →
  0 < n →
  move libm py i (PyInt n) c = (Return tt, c') →
  is_empty c' (position r) = true.
Proof.
  intros Hcol Hr Hn Hmove.
  (* the first step returned, so the cell in front is not the rover's own *)
  pose proof Hmove as Hfirst. rewrite move_unfold in Hfirst by done.
  destruct (unit_step libm i c) as [[[]|e] c1] eqn:Hstep; [|done].
  destruct (unit_step_return libm _ _ _ Hstep) as (r' & d & Hr' & Hd & He & _ & _).
  assert (r' = r) as -> by congruence.
  assert (translate (position r) d ≠ position r) as Hmoved.
  { intros Heq. by apply (proj1 (is_empty_true c _) He i r Hr). }
  (* the rover ends on the line, [n] cells away *)
  unfold move in Hmove.
  destruct (move_at_on_line (step_budget py) n i r d c Hr Hd)
    as (k & res & Hk & Hrun & _ & Hpart).
  rewrite Hmove in Hrun. injection Hrun as <- ->.
  assert (k = n) as ->.
  { destruct (decide (k < Z.max 0 n)) as [Hlt|]; [|lia]. by destruct (Hpart Hlt). }
  apply is_empty_true. intros j rj. simpl.
  rewrite lookup_insert. case_decide as Hij.
  - intros [= <-]. simpl. rewrite <- (advance_0 (position r) d) at 2.
    intros Heq. apply advance_eq in Heq; [done|lia].
  - intros Hj. by apply (Hcol j i rj r).
Qed.

End Moves.

Section Sequences.

Context {Id : Type} `{Countable Id}.
Variable libm : Libm.
Variable py : Interpreter.

Implicit Types (c : controller Id) (i j : Id).

Lemma add_rover_frame i p h c :
  vertices (add_rover i p h c).2 = vertices c ∧
  (∀ j r, rovers c !! j = Some r → rovers (add_rover i p h c).2 !! j = Some r).
Proof.
  rewrite add_rover_eq.
  destruct (is_empty c p); simpl; [|done].
  destruct (in_grid c p); simpl; [|done].
  destruct (rovers c !! i) eqn:Hi; simpl; [done|].
  split; [done|]. intros j r Hj. rewrite lookup_insert_ne; [done|]. congruence.
Qed.

Lemma exec_frame o c :
  vertices (exec libm py o c).2 = vertices c ∧
  (∀ j, is_Some (rovers c !! j) → is_Some (rovers (exec libm py o c).2 !! j)).
Proof.
  destruct o as [i p h|i a z|i dist]; simpl.
  - destruct (add_rover_frame i p h c) as [Hv Hkeep]. split; [done|].
    intros j [r Hr]. exists r. by apply Hkeep.
  - rewrite turn_eq. destruct (orthogonal a && orthogonal z); [|done].
    destruct (rovers c !! i) as [r|] eqn:Hr; simpl; [|done].
    split; [done|]. intros j Hj. rewrite lookup_insert. by case_decide.
  - unfold move.
    destruct (move_at_frame libm (step_budget py) i dist c) as (Hv & Hother & Hhead).
    split; [done|]. intros j Hj. destruct (decide (j = i)) as [->|Hne].
    + apply (fmap_is_Some heading). rewrite Hhead. by apply fmap_is_Some.
    + by rewrite Hother.
Qed.

(** X16.  No sequence of [add_rover], [turn] and [move] calls changes the
    vertices or loses a rover: after each operation, returned or raised, the
    vertices are those of the start and every id that was present is still
    present. *)
Theorem trace_keeps_box_and_ids ops c :
  Forall (λ c', vertices c' = vertices c ∧
                ∀ j, is_Some (rovers c !! j) → is_Some (rovers c' !! j))
    (trace libm py ops c).
Proof.
  revert c. induction ops as [|o ops IH]; intros c; simpl; [constructor|].
  destruct (exec_frame o c) as [Hv Hids]. constructor; [done|].
  eapply Forall_impl; [apply IH|]. simpl. intros c' [Hv' Hids'].
  split; [congruence|]. intros j Hj. by apply Hids', Hids.
Qed.

(** ** Deltas that are not finite *)

Lemma orthogonal_non_finite :
  orthogonal nan = false ∧ orthogonal infinity = false ∧
  orthogonal neg_infinity = false.
Proof. repeat split; vm_compute; reflexivity. Qed.

(** X17.  [turn] refuses a delta that is not a number or is infinite, in
    either place, with [NonOrthogonalTurn], for every id, present or not, and
    leaves the controller as it was. *)
Theorem turn_non_finite i a z c :
  a = nan ∨ a = infinity ∨ a = neg_infinity ∨
  z = nan ∨ z = infinity ∨ z = neg_infinity →
  turn i a z c = (Raise NonOrthogonalTurn, c).
Proof.
  destruct orthogonal_non_finite as (Hnan & Hinf & Hninf).
  intros Hbad. rewrite turn_eq.
  assert (orthogonal a && orthogonal z = false) as ->; [|done].
  destruct Hbad as [-> | [-> | [-> | [-> | [-> | ->]]]]];
    rewrite ?Hnan, ?Hinf, ?Hninf, ?andb_false_r; done.
Qed.

End Sequences.

Section Capacity.

Context {Id : Type} `{Countable Id}.

Implicit Types (c : controller Id) (i j : Id) (p : Position).

Lemma elem_of_axis a b x : x ∈ axis a b ↔ between a b x.
Proof. unfold axis, between. rewrite elem_of_seqZ. lia. Qed.

Lemma length_axis a b : Z.of_nat (length (axis a b)) = Z.abs (b - a) + 1.
Proof. unfold axis. rewrite length_seqZ. lia. Qed.

Lemma elem_of_cells c p : p ∈ cells (vertices c) ↔ in_grid c p = true.
Proof.
  destruct p as [[x y] z]. rewrite in_grid_between. unfold cells.
  destruct (vertices c) as [[[x0 y0] z0] [[x1 y1] z1]]. simpl.
  rewrite list_elem_of_In.
  rewrite (in_prod_iff (list_prod (axis x0 x1) (axis y0 y1)) (axis z0 z1) (x, y) z).
  rewrite (in_prod_iff (axis x0 x1) (axis y0 y1) x y).
  rewrite <- !list_elem_of_In, !elem_of_axis. tauto.
Qed.

Lemma length_cells (b : Box) : Z.of_nat (length (cells b)) = volume b.
Proof.
  destruct b as [[[x0 y0] z0] [[x1 y1] z1]]. unfold cells, volume.
  unfold Position. by rewrite !length_prod, !Nat2Z.inj_mul, !length_axis.
Qed.

Lemma length_positions c : length (positions c) = size (rovers c).
Proof. unfold positions. by rewrite !length_fmap, length_map_to_list. Qed.

(** When no two ids share a cell, the list that [is_empty] searches has no
    repetition. *)
Lemma positions_NoDup c : no_collision c → NoDup (positions c).
Proof.
  intros Hcol. unfold positions. rewrite <- list_fmap_compose.
  apply NoDup_fmap_2_strong; [|apply NoDup_map_to_list].
  intros [i ri] [j rj] Hi%elem_of_map_to_list Hj%elem_of_map_to_list Heq.
  simpl in Heq. destruct (decide (i = j)) as [->|Hne]; [congruence|].
  by destruct (Hcol i j ri rj Hne Hi Hj).
Qed.

Lemma positions_in_cells c :
  invariant c → positions c ⊆+ cells (vertices c).
Proof.
  intros (Hgrid & Hcol & _). apply NoDup_submseteq; [by apply positions_NoDup|].
  intros p (i & r & Hr & <-)%elem_of_positions.
  apply elem_of_cells. by apply (Hgrid i r).
Qed.

(** X18.  A controller that satisfies the invariants holds at most as many
    rovers as the box has cells. *)
Theorem rovers_at_most_cells c :
  invariant c → Z.of_nat (size (rovers c)) <= volume (vertices c).
Proof.
  intros Hinv. rewrite <- length_positions, <- length_cells.
  apply inj_le, submseteq_length. by apply positions_in_cells.
Qed.

(** X19.  On a controller that satisfies the invariants and holds as many
    rovers as the box has cells, every [add_rover] raises, whatever the id,
    the position and the heading, and leaves the controller as it was. *)
Theorem add_rover_full_grid i p h c :
  invariant c →
  Z.of_nat (size (rovers c)) = volume (vertices c) →
  ∃ e, add_rover i p h c = (Raise e, c).
Proof.
  intros Hinv Hfull. rewrite add_rover_eq.
  destruct (is_empty c p) eqn:Hempty; simpl; [|by eexists].
  destruct (in_grid c p) eqn:Hgrid; simpl; [|by eexists].
  exfalso.
  assert (positions c ≡ₚ cells (vertices c)) as Hperm.
  { apply submseteq_length_Permutation; [by apply positions_in_cells|].
    apply Nat2Z.inj_le. rewrite length_positions, length_cells. lia. }
  apply elem_of_cells in Hgrid. rewrite <- Hperm in Hgrid.
  apply elem_of_positions in Hgrid as (j & r & Hr & Hpos).
  by apply (proj1 (is_empty_true c p) Hempty j r).
Qed.

End Capacity.

(** * The further properties on the reference driver's data *)

Lemma driver_start_invariant : invariant driver_start.
Proof.
  assert (driver_start =
            (add_rover "rover1" (1, 2, 0) (PyFloat.half_pi, PyFloat.half_pi)
               (new_controller driver_box)).2) as -> by (vm_compute; reflexivity).
  apply add_rover_invariant, new_controller_invariant.
Qed.

Lemma full_start_invariant : invariant full_start.
Proof.
  assert (full_start =
            (add_rover "rover1" (0, 0, 0) (PyFloat.half_pi, PyFloat.half_pi)
               (new_controller ((0, 0, 0), (0, 0, 0)))).2) as ->
    by (vm_compute; reflexivity).
  apply add_rover_invariant, new_controller_invariant.
Qed.

(** X3, witness: a second rover on a free cell of the driver's grid. *)
Lemma add_rover_returns_iff_witness :
  (add_rover "rover2" (3, 3, 0) (0, PyFloat.half_pi)%float driver_start).1
    = Return tt.
Proof.
  apply (add_rover_returns_iff "rover2" (3, 3, 0) (0, PyFloat.half_pi)%float
           driver_start).
  repeat split; vm_compute; reflexivity.
Defined.

(** X4, witness: the driver's second [add_rover], read back. *)
Lemma add_rover_get_rover_witness :
  get_rover "rover2"
    (MkController driver_box
       {[ "rover1" := MkRover (1, 2, 0) (PyFloat.half_pi, PyFloat.half_pi);
          "rover2" := MkRover (3, 3, 0) (0, PyFloat.half_pi)%float ]})
  = (Return (MkRover (3, 3, 0) (0, PyFloat.half_pi)%float),
     MkController driver_box
       {[ "rover1" := MkRover (1, 2, 0) (PyFloat.half_pi, PyFloat.half_pi);
          "rover2" := MkRover (3, 3, 0) (0, PyFloat.half_pi)%float ]}).
Proof.
  apply (add_rover_get_rover "rover2" (3, 3, 0) (0, PyFloat.half_pi)%float
           driver_start).
  vm_compute. reflexivity.
Defined.

(** X5, witness: a third rover on the second rover's cell. *)
Lemma add_rover_twice_same_cell_witness :
  add_rover "rover3" (3, 3, 0) (0, 0)%float
    (MkController driver_box
       {[ "rover1" := MkRover (1, 2, 0) (PyFloat.half_pi, PyFloat.half_pi);
          "rover2" := MkRover (3, 3, 0) (0, PyFloat.half_pi)%float ]})
  = (Raise PositionOccupied,
     MkController driver_box
       {[ "rover1" := MkRover (1, 2, 0) (PyFloat.half_pi, PyFloat.half_pi);
          "rover2" := MkRover (3, 3, 0) (0, PyFloat.half_pi)%float ]}).
Proof.
  apply (add_rover_twice_same_cell "rover2" "rover3" (3, 3, 0)
           (0, PyFloat.half_pi)%float (0, 0)%float driver_start).
  vm_compute. reflexivity.
Defined.

(** X6, witness: the driver's first turn keeps [rover1] on its cell. *)
Lemma turn_frame_witness :
  position <$> rovers (turn "rover1" PyFloat.half_pi 0 driver_start).2 !! "rover1"
    = Some (1, 2, 0).
Proof.
  refine (eq_trans
            (proj2 (proj2 (turn_frame "rover1" PyFloat.half_pi 0 driver_start))) _).
  vm_compute. reflexivity.
Defined.

(** X7, witness: a move that stops at the edge keeps the heading. *)
Lemma move_frame_witness :
  heading <$> rovers (move glibc_samples cpython_default "rover1" (PyInt 5) driver_start).2 !! "rover1"
    = Some (PyFloat.half_pi, PyFloat.half_pi).
Proof.
  refine (eq_trans
            (proj2 (proj2 (move_frame glibc_samples cpython_default "rover1" (PyInt 5) driver_start)))
            _).
  vm_compute. reflexivity.
Defined.

(** X8, witness: [rover1] stands right behind [rover2]. *)
Lemma move_blocked_by_rover_witness :
  move glibc_samples cpython_default "rover1" (PyInt 2) crowded_start
    = (Raise PositionOccupied, crowded_start).
Proof.
  apply (move_blocked_by_rover glibc_samples cpython_default "rover1" "rover2"
           (MkRover (1, 2, 0) (PyFloat.half_pi, PyFloat.half_pi))
           (MkRover (1, 3, 0) (PyFloat.half_pi, PyFloat.half_pi))
           (0, 1, 0) 2 crowded_start); vm_compute; reflexivity.
Defined.

(** X9, witness: [rover3] faces the edge of the grid. *)
Lemma move_blocked_by_edge_witness :
  move glibc_samples cpython_default "rover3" (PyInt 1) crowded_start
    = (Raise OutOfBounds, crowded_start).
Proof.
  apply (move_blocked_by_edge glibc_samples cpython_default "rover3"
           (MkRover (0, 5, 0) (PyFloat.half_pi, PyFloat.half_pi))
           (0, 1, 0) 1 crowded_start); vm_compute; reflexivity.
Defined.


(** X11, witness: a rover added with the heading [(nan, nan)]. *)
Lemma move_conversion_error_witness :
  move glibc_samples cpython_default "rover1" (PyInt 1) lost_start
    = (Raise ConversionError, lost_start).
Proof.
  apply (move_conversion_error glibc_samples cpython_default "rover1"
           (MkRover (1, 2, 0) (nan, nan)) 1 lost_start); vm_compute; reflexivity.
Defined.

(** X12, witness: three free cells north of the driver's first rover. *)
Lemma move_straight_witness :
  move glibc_samples cpython_default "rover1" (PyInt 3) driver_start =
    (Return tt,
     MkController driver_box
       {[ "rover1" := MkRover (1, 5, 0) (PyFloat.half_pi, PyFloat.half_pi) ]}).
Proof.
  refine (eq_trans
            (move_straight glibc_samples cpython_default "rover1"
               (MkRover (1, 2, 0) (PyFloat.half_pi, PyFloat.half_pi))
               (0, 1, 0) 3 driver_start _ _ _ _) _).
  - vm_compute. reflexivity.
  - vm_compute. reflexivity.
  - split; discriminate.
  - intros k Hk.
    assert (k = 1 ∨ k = 2 ∨ k = 3) as [-> | [-> | ->]] by lia;
      split; vm_compute; reflexivity.
  - vm_compute. reflexivity.
Defined.


(** X14, witness: one step and then two, against three at once. *)
Lemma move_additive_witness :
  bind (move glibc_samples cpython_default "rover1" (PyInt 1))
       (λ _, move glibc_samples cpython_default "rover1" (PyInt 2)) driver_start
  = move glibc_samples cpython_default "rover1" (PyInt (1 + 2)) driver_start.
Proof.
  apply (move_additive glibc_samples cpython_default "rover1" 1 2 driver_start);
    discriminate.
Defined.

(** X15, witness: after two steps north the starting cell is free. *)
Lemma move_frees_start_witness :
  is_empty
    (MkController driver_box
       {[ "rover1" := MkRover (1, 4, 0) (PyFloat.half_pi, PyFloat.half_pi) ]})
    (1, 2, 0) = true.
Proof.
  apply (move_frees_start glibc_samples cpython_default "rover1"
           (MkRover (1, 2, 0) (PyFloat.half_pi, PyFloat.half_pi)) 2 driver_start).
  - apply driver_start_invariant.
  - vm_compute. reflexivity.
  - reflexivity.
  - vm_compute. reflexivity.
Defined.

(** X17, witness. *)
Lemma turn_non_finite_witness :
  turn "rover1" infinity 0 driver_start = (Raise NonOrthogonalTurn, driver_start).
Proof.
  apply (turn_non_finite "rover1" infinity 0 driver_start). right. by left.
Defined.

(** X18, witness: one rover on the driver's grid of 36 cells. *)
Lemma rovers_at_most_cells_witness :
  Z.of_nat (size (rovers driver_start)) <= volume (vertices driver_start).
Proof. apply (rovers_at_most_cells driver_start), driver_start_invariant. Defined.

(** X19, witness: the grid of one cell is full. *)
Lemma add_rover_full_grid_witness :
  ∃ e, add_rover "rover2" (0, 0, 0) (0, 0)%float full_start = (Raise e, full_start).
Proof.
  apply (add_rover_full_grid "rover2" (0, 0, 0) (0, 0)%float full_start).
  - apply full_start_invariant.
  - vm_compute. reflexivity.
Defined.
